(** * The JWT gate of package [mw] (jwt_hs256.go)

    A shallow embedding of [Bearer], [JwtHS256] and [GetClaimsFromContext].
    The Go libraries the file calls ([context], [net/url], [net/http] and
    [jwt-go]) are embedded as far as the three functions use them; what
    the libraries compute from raw bytes (query and body decoding, token
    decoding, signature verification, writing the reply) is taken as a
    parameter of the development. *)

From Stdlib Require Import ZArith Ascii String.
From stdpp Require Import base decidable option list strings gmap fin_maps.

#[local] Open Scope string_scope.

(** Go's [error] interface: a value with an [Error()] message.  A [nil]
    error is [None] in [option error]. *)
Record error := errorString { Error : string }.

(** ** Package [context] *)

Module context.
Section context.
(** Keys and values are [interface{}] in Go; [K] is the type of the keys
    in use, [V] the type of the non-nil values, [None] is [nil]. *)
Context {K V : Type} `{EqDecision K}.

(** [Background] is the empty context, [WithValue] the [valueCtx] node
    that [context.WithValue(parent, key, val)] allocates. *)
Inductive Context :=
| Background
| WithValue (parent : Context) (key : K) (val : option V).

(** [ctx.Value(key)]: the nearest binding of [key], [nil] if there is
    none. *)
Fixpoint Value (ctx : Context) (key : K) : option V :=
  match ctx with
  | Background => None
  | WithValue parent k val => if decide (k = key) then val else Value parent key
  end.
End context.
Arguments Context : clear implicits.
End context.

(** ** Package [net/url] *)

(** [url.Values] and [http.Header] are both [map[string][]string]. *)
Abbreviation Values := (gmap string (list string)).

Module url.
Record URL := { RawQuery : string }.

Section url.
(** [url.ParseQuery]: the decoded pairs and the first decoding error; the
    map it returns is never [nil]. *)
Variable ParseQuery : string → Values * option error.

(** [u.Query()] drops the error of [ParseQuery]. *)
Definition Query (u : URL) : Values := (ParseQuery (RawQuery u)).1.
End url.
End url.

(** ** Package [net/http]

    [Header.Get], [copyValues], [Request.ParseForm] and
    [Request.FormValue] follow header.go and request.go of the Go
    standard library. *)

Module http.
Definition StatusUnauthorized : Z := 401.
Definition StatusForbidden : Z := 403.

(** [h.Get(key)]: the first value stored under [key], [""] if there is
    none.  The canonical form of the key is the key itself for the only
    key this development uses. *)
Definition Header_Get (h : Values) (key : string) : string :=
  match h !!! key with
  | [] => ""
  | v :: _ => v
  end.

(** [copyValues(dst, src)]: [dst[k] = append(dst[k], vs...)] for every
    [k, vs] of [src]. *)
Definition copyValues (dst src : Values) : Values :=
  union_with (λ d s, Some (d ++ s)%list) dst src.

Section http.
Context {K V : Type}.

(** The fields of [http.Request] the gate reads or writes.  [Form] and
    [PostForm] are [nil] ([None]) until the request has been parsed;
    [URL] is never [nil] on a request a server hands to a handler.
    [Body] is the content of the body as the request arrived: the
    position of the stream, which [ParseForm] reads to its end when it
    decodes the body, is not part of the record, and nothing below is
    stated about it. *)
Record Request := {
  Method : string;
  URL : url.URL;
  Header : Values;
  Body : string;
  Form : option Values;
  PostForm : option Values;
  ctx : context.Context K V
}.

Definition set_Form (r : Request) (f : option Values) : Request :=
  {| Method := Method r; URL := URL r; Header := Header r; Body := Body r;
     Form := f; PostForm := PostForm r; ctx := ctx r |}.

Definition set_PostForm (r : Request) (f : option Values) : Request :=
  {| Method := Method r; URL := URL r; Header := Header r; Body := Body r;
     Form := Form r; PostForm := f; ctx := ctx r |}.

(** [r.Context()] and [r.WithContext(ctx)]; the copy shares the maps of
    the original. *)
Definition Context (r : Request) : context.Context K V := ctx r.

Definition WithContext (r : Request) (c : context.Context K V) : Request :=
  {| Method := Method r; URL := URL r; Header := Header r; Body := Body r;
     Form := Form r; PostForm := PostForm r; ctx := c |}.

Variable ParseQuery : string → Values * option error.

(** [parsePostForm(r)]: the values decoded from a form-encoded body
    ([nil] for a body of another kind) and the decoding error. *)
Variable parsePostForm : Request → option Values * option error.

(** [r.ParseMultipartForm(defaultMaxMemory)], its error dropped. *)
Variable ParseMultipartForm : Request → Request.

(** [r.ParseForm()]: fills [r.PostForm] from the body of a POST, PUT or
    PATCH request and [r.Form] from the body values followed by the
    query values; a request already parsed is left alone. *)
Definition ParseForm (r : Request) : option error * Request :=
  let '(err, r) :=
    match PostForm r with
    | None =>
        let '(pf, err) :=
          if bool_decide (Method r = "POST" ∨ Method r = "PUT" ∨ Method r = "PATCH")
          then parsePostForm r
          else (None, None) in
        let pf := match pf with None => ∅ | Some vs => vs end in
        (err, set_PostForm r (Some pf))
    | Some _ => (None, r)
    end in
  match Form r with
  | None =>
      let form :=
        if bool_decide (default ∅ (PostForm r) ≠ ∅)
        then Some (copyValues ∅ (default ∅ (PostForm r)))
        else None in
      let '(newValues, e) := ParseQuery (url.RawQuery (URL r)) in
      let err := match err with None => e | Some _ => err end in
      let form :=
        match form with
        | None => newValues
        | Some f => copyValues f newValues
        end in
      (err, set_Form r (Some form))
  | Some _ => (err, r)
  end.

(** [r.FormValue(key)]: the first value of [key] in [r.Form], parsing
    the request first when [r.Form] is [nil]. *)
Definition FormValue (r : Request) (key : string) : string * Request :=
  let r := match Form r with None => ParseMultipartForm r | Some _ => r end in
  match default ∅ (Form r) !!! key with
  | [] => ("", r)
  | v :: _ => (v, r)
  end.
End http.
Arguments Request : clear implicits.
End http.

(** ** Package [jwt] (jwt-go) *)

Module jwt.
(** The signing methods the library registers, by family: the dynamic
    types a [SigningMethod] value can have. *)
Inductive SigningMethod :=
| SigningMethodHMAC (Name : string)
| SigningMethodRSA (Name : string)
| SigningMethodRSAPSS (Name : string)
| SigningMethodECDSA (Name : string)
| signingMethodNone.

Section jwt.
(** [claims] is the type of the claim structures, so that a [Claims]
    interface value is an [option claims]; [value] is the type of the
    decoded header values. *)
Context {claims value : Type}.

Record Token := {
  Raw : string;
  Method : option SigningMethod;
  Header : gmap string value;
  Claims : option claims;
  Signature : string;
  Valid : bool
}.

(** [jwt.Keyfunc]: from the parsed, unverified token to the key and an
    error. *)
Definition Keyfunc : Type := Token → option (list Byte.byte) * option error.

(** Decoding of the three segments into a token whose [Method] is the
    registered method of the declared algorithm, or an error. *)
Variable ParseUnverified : string → option claims → Token * option error.

(** Validation of the claims and verification of the signature with the
    key the callback returned; it sets [Valid]. *)
Variable verify : Token → option (list Byte.byte) → Token * option error.

(** Modelled from the spec: the parser [jwt.ParseWithClaims] of the
    library, which is not part of the repository.  The token is decoded,
    the callback is asked for the key, and a failure of the callback is a
    failure of the parse whose message is the callback's; otherwise the
    token is verified with the key. *)
Definition ParseWithClaims (tokenString : string) (c : option claims)
    (keyFunc : Keyfunc) : Token * option error :=
  let '(token, err) := ParseUnverified tokenString c in
  match err with
  | Some _ => (token, err)
  | None =>
      let '(key, err) := keyFunc token in
      match err with
      | Some _ => (token, err)
      | None => verify token key
      end
  end.
End jwt.
Arguments Token : clear implicits.
Arguments Keyfunc : clear implicits.

Section parser.
Context {claims value : Type}.

(** [c.Valid()] of the claim structure, and
    [token.Method.Verify(signingString, signature, key)]. *)
Variable Claims_Valid : option claims → option error.
Variable Method_Verify : Token claims value → option (list Byte.byte) → option error.

Definition setValid (t : Token claims value) (b : bool) : Token claims value :=
  {| Raw := Raw t; Method := Method t; Header := Header t;
     Claims := Claims t; Signature := Signature t; Valid := b |}.

(** The second half of [Parser.ParseWithClaims], as parser.go of the
    library has it (the library is not part of the repository): the
    claims are validated, then the signature is verified with the key; an
    error of the verification takes the place of the validation error as
    the message of the error returned.  The token is made [Valid], and
    the error is [nil], only when neither failed. *)
Definition validate (token : Token claims value) (key : option (list Byte.byte))
    : Token claims value * option error :=
  let vErr := Claims_Valid (Claims token) in
  let vErr :=
    match Method_Verify token key with
    | Some err => Some err
    | None => vErr
    end in
  match vErr with
  | None => (setValid token true, None)
  | Some _ => (token, vErr)
  end.
End parser.
End jwt.

(** ** Package [mw] *)

(** [jwtAuthKey] is an authorization key param. *)
Definition jwtAuthKey : string := "Authorization".

(** The keys of a request context: [claimsKey{}], of the unexported type
    of this package, and the keys other packages define. *)
Inductive ctxKey :=
| claimsKey
| foreignKey (name : string).

#[global] Instance ctxKey_eq_dec : EqDecision ctxKey.
Proof. solve_decision. Defined.

(** The dynamic values of a request context: a claim structure (a value
    that implements [Claims]) or a value of another type. *)
Inductive ctxValue (claims value : Type) :=
| ofClaims (c : claims)
| ofOther (v : value).
Arguments ofClaims {claims value} c.
Arguments ofOther {claims value} v.

(** ** A concrete configuration

    Instances of the library parameters on which the statements below are
    evaluated: a decoder of [k=v&k=v] strings without escapes, tokens of
    the form [alg.subject.signature] whose signature is valid when it is
    the key itself, and a writer that records the replies. *)

Module Example.
Definition claims : Type := string.
Definition value : Type := string.
Abbreviation Request := (http.Request ctxKey (ctxValue claims value)).
Abbreviation Token := (jwt.Token claims value).

Fixpoint splitOn (sep : ascii) (s : string) : list string :=
  match s with
  | EmptyString => [""]
  | String c s' =>
      if Ascii.eqb c sep then "" :: splitOn sep s'
      else match splitOn sep s' with
           | [] => [String c ""]
           | x :: xs => String c x :: xs
           end
  end.

Fixpoint cut (sep : ascii) (s : string) : string * string :=
  match s with
  | EmptyString => ("", "")
  | String c s' =>
      if Ascii.eqb c sep then ("", s')
      else let '(k, v) := cut sep s' in (String c k, v)
  end.

Fixpoint contains (c : ascii) (s : string) : bool :=
  match s with
  | EmptyString => false
  | String c' s' => Ascii.eqb c' c || contains c s'
  end.

Definition addPair (acc : Values * option error) (kv : string) : Values * option error :=
  let '(m, err) := acc in
  if bool_decide (kv = "") then acc
  else if contains ";" kv then
    (m, match err with
        | None => Some (errorString "invalid semicolon separator in query")
        | Some _ => err
        end)
  else let '(k, v) := cut "=" kv in (<[k := (m !!! k ++ [v])%list]> m, err).

Definition ParseQuery (s : string) : Values * option error :=
  foldl addPair (∅, None) (splitOn "&" s).

Definition parsePostForm (r : Request) : option Values * option error :=
  let '(vs, err) := ParseQuery (http.Body r) in (Some vs, err).

Definition ParseMultipartForm (r : Request) : Request :=
  (http.ParseForm ParseQuery parsePostForm r).2.

Definition methodOf (alg : string) : option jwt.SigningMethod :=
  if bool_decide (alg = "HS256" ∨ alg = "HS384" ∨ alg = "HS512")
  then Some (jwt.SigningMethodHMAC alg)
  else if bool_decide (alg = "RS256") then Some (jwt.SigningMethodRSA alg)
  else if bool_decide (alg = "PS256") then Some (jwt.SigningMethodRSAPSS alg)
  else if bool_decide (alg = "ES256") then Some (jwt.SigningMethodECDSA alg)
  else if bool_decide (alg = "none") then Some jwt.signingMethodNone
  else None.

Definition ParseUnverified (s : string) (c : option claims) : Token * option error :=
  match splitOn "." s with
  | [alg; sub; sig] =>
      let token :=
        {| jwt.Raw := s; jwt.Method := methodOf alg;
           jwt.Header := {[ "alg" := alg ]}; jwt.Claims := Some sub;
           jwt.Signature := sig; jwt.Valid := false |} in
      match methodOf alg with
      | Some _ => (token, None)
      | None => (token, Some (errorString "signing method (alg) is unavailable."))
      end
  | _ =>
      ({| jwt.Raw := s; jwt.Method := None; jwt.Header := ∅; jwt.Claims := c;
          jwt.Signature := ""; jwt.Valid := false |},
       Some (errorString "token contains an invalid number of segments"))
  end.

Definition Claims_Valid (c : option claims) : option error :=
  if bool_decide (c = Some "expired")
  then Some (errorString "token is expired by 1h0m0s")
  else None.

Definition Method_Verify (t : Token) (key : option (list Byte.byte)) : option error :=
  if bool_decide (string_of_list_byte <$> key = Some (jwt.Signature t))
  then None
  else Some (errorString "signature is invalid").

Definition verify : Token → option (list Byte.byte) → Token * option error :=
  jwt.validate Claims_Valid Method_Verify.

Definition fmt_v (v : option value) : string := default "<nil>" v.

Definition ResponseWriter : Type := list (Z * string).

Definition http_Error (w : ResponseWriter) (msg : string) (code : Z) : ResponseWriter :=
  (w ++ [(code, msg)])%list.

Definition served (w : ResponseWriter) (r : Request) : ResponseWriter :=
  (w ++ [(200%Z, "served")])%list.

Definition request (method : string) (header : Values) (query body : string) : Request :=
  {| http.Method := method; http.URL := {| url.RawQuery := query |};
     http.Header := header; http.Body := body;
     http.Form := None; http.PostForm := None; http.ctx := context.Background |}.

Definition cf (_ : unit) : option claims := None.

(** A token in each of the three places. *)
Definition reqAll : Request :=
  request "POST" {[ "Authorization" := ["HS256.alice.k"] ]}
    "Authorization=HS256.bob.k" "Authorization=HS256.carol.k".

(** A repeated query parameter whose first value is empty. *)
Definition reqQuery : Request :=
  request "GET" ∅ "Authorization=&Authorization=HS256.alice.k&page=2" "".

(** A token in the form body, next to another field. *)
Definition reqForm : Request :=
  request "POST" ∅ "page=2" "Authorization=HS256.alice.k&name=x".

(** A body that does not decode. *)
Definition reqBad : Request :=
  request "POST" ∅ "" "Authorization=HS256.alice.k;name=x".

(** No token at all. *)
Definition reqNone : Request :=
  request "POST" {[ "Accept" := ["*/*"] ]} "page=2&Authorization=" "name=x".

(** Tokens the gate refuses: the method "none", an RSA method with a
    signature that the library would accept, a signature made with
    another key, claims that are not valid. *)
Definition reqNoneAlg : Request :=
  request "GET" {[ "Authorization" := ["none.alice."] ]} "" "".
Definition reqRSA : Request :=
  request "GET" {[ "Authorization" := ["RS256.alice.k"] ]} "" "".
Definition reqWrongKey : Request :=
  request "GET" {[ "Authorization" := ["HS256.alice.j"] ]} "" "".
Definition reqExpired : Request :=
  request "GET" {[ "Authorization" := ["HS256.expired.k"] ]} "" "".

(** A token in the body behind a query that does not decode, in the body
    of a GET request, and behind an empty first value of the field. *)
Definition reqBadQuery : Request :=
  request "POST" ∅ "page=2;sort=asc" "Authorization=HS256.alice.k".
Definition reqGetBody : Request :=
  request "GET" ∅ "page=2" "Authorization=HS256.alice.k".
Definition reqFormRepeated : Request :=
  request "POST" ∅ "" "Authorization=&Authorization=HS256.alice.k".

(** A request that a handler has parsed before the gate. *)
Definition reqParsed : Request :=
  {| http.Method := "POST"; http.URL := {| url.RawQuery := "" |};
     http.Header := ∅; http.Body := "";
     http.Form := Some {[ "Authorization" := ["HS256.alice.k"]; "name" := ["x"] ]};
     http.PostForm := Some {[ "Authorization" := ["HS256.alice.k"]; "name" := ["x"] ]};
     http.ctx := context.Background |}.

(** A verifier that agrees with [verify] under the key ["k"] and accepts
    every token under any other key. *)
Definition verifyLax (t : Token) (key : option (list Byte.byte)) : Token * option error :=
  if bool_decide (string_of_list_byte <$> key = Some "k") then verify t key
  else (jwt.setValid t true, None).
End Example.

Section mw.
Context {claims value : Type}.

(** [Claims] is the interface wrapping [jwt.Claims]; [None] is the [nil]
    interface, its zero value. *)
Definition Claims : Type := option claims.

Abbreviation Request := (http.Request ctxKey (ctxValue claims value)).
Abbreviation Context := (context.Context ctxKey (ctxValue claims value)).
Abbreviation Token := (jwt.Token claims value).

(** Conversion of a [Claims] value to [interface{}], as at the call of
    [context.WithValue], and the type assertion [x.(Claims)] in its
    two-result form. *)
Definition toInterface (c : Claims) : option (ctxValue claims value) :=
  ofClaims <$> c.

Definition assertClaims (x : option (ctxValue claims value)) : Claims * bool :=
  match x with
  | Some (ofClaims c) => (Some c, true)
  | _ => (None, false)
  end.

Variable ParseQuery : string → Values * option error.
Variable parsePostForm : Request → option Values * option error.
Variable ParseMultipartForm : Request → Request.

(** The loop [for _, bearer = range vs { if bearer != "" { return } }]:
    the first non-empty element, if the loop returns. *)
Fixpoint rangeBearer (vs : list string) : option string :=
  match vs with
  | [] => None
  | bearer :: vs => if bool_decide (bearer ≠ "") then Some bearer else rangeBearer vs
  end.

(** No non-empty value is stored under [jwtAuthKey] in [vs]. *)
Definition noValue (vs : Values) : Prop :=
  Forall (λ v, v = "") (vs !!! jwtAuthKey).

(** [Bearer] gets the bearer out of a given request object.  The request
    is passed by pointer: the third component is the request as the call
    leaves it. *)
Definition Bearer (r : Request) : string * bool * Request :=
  (* get bearer from the request headers *)
  let bearer := http.Header_Get (http.Header r) jwtAuthKey in
  if bool_decide (bearer ≠ "") then (bearer, true, r) else
  (* try URL params for the bearer *)
  match rangeBearer (url.Query ParseQuery (http.URL r) !!! jwtAuthKey) with
  | Some bearer => (bearer, true, r)
  | None =>
      (* try to parse headers from request body *)
      let '(err, r) := http.ParseForm ParseQuery parsePostForm r in
      match err with
      | Some _ => ("", false, r)
      | None =>
          let '(bearer, r) := http.FormValue ParseMultipartForm r jwtAuthKey in
          if bool_decide (bearer ≠ "") then
            (* remove JWT from the form values *)
            (bearer, true, http.set_PostForm r (delete jwtAuthKey <$> http.PostForm r))
          else
            (* token not found *)
            ("", false, r)
      end
  end.

(** [GetClaimsFromContext] returns claims from context. *)
Definition GetClaimsFromContext (ctx : Context) : Claims :=
  let '(claims, _) := assertClaims (context.Value ctx claimsKey) in
  claims.

(** A [http.ResponseWriter] is a state the handlers transform;
    [http.Error(w, error, code)] replies with the message and the status
    code. *)
Variable ResponseWriter : Type.
Variable http_Error : ResponseWriter → string → Z → ResponseWriter.

(** [http.Handler], by its [ServeHTTP] method, and [Middleware]. *)
Definition Handler : Type := ResponseWriter → Request → ResponseWriter.
Definition Middleware : Type := Handler → Handler.

Variable ParseUnverified : string → Claims → Token * option error.
Variable verify : Token → option (list Byte.byte) → Token * option error.

(** [%v] of a header value, [None] being a missing one. *)
Variable fmt_v : option value → string.

(** The callback [JwtHS256] hands to the parser. *)
Definition keyFunc (secret : string) : jwt.Keyfunc claims value :=
  fun token =>
    (* check token algorithm *)
    match jwt.Method token with
    | Some (jwt.SigningMethodHMAC _) => (Some (list_byte_of_string secret), None)
    | _ =>
        (None,
         Some (errorString
                 ("unexpected signing method: " ++ fmt_v (jwt.Header token !! "alg"))))
    end.

(** [JwtHS256] is a JSON Web token middleware using HMAC signing method
    that parses token to the provided Claims receiver and puts it to the
    request context. *)
Definition JwtHS256 (secret : string) (cf : unit → Claims) : Middleware :=
  fun next => fun w r =>
    (* get JSON web token from the request *)
    let '(bearer, ok, r) := Bearer r in
    if negb ok then
      http_Error w "no JSON web token in request" http.StatusUnauthorized
    else
      (* parse JWT *)
      let '(token, err) :=
        jwt.ParseWithClaims ParseUnverified verify bearer (cf tt) (keyFunc secret) in
      match err with
      | Some err =>
          (* cannot parse the token *)
          http_Error w (Error err) http.StatusForbidden
      | None =>
          if negb (jwt.Valid token) then
            (* token validation error *)
            http_Error w "token is invalid" http.StatusForbidden
          else
            (* add claims to the context and call the next *)
            next w (http.WithContext r
                      (context.WithValue (http.Context r) claimsKey
                         (toInterface (jwt.Claims token))))
      end.

(** ** The token locator *)

Lemma rangeBearer_None (vs : list string) :
  rangeBearer vs = None ↔ Forall (λ v, v = "") vs.
Proof.
  induction vs as [|v vs IH]; simpl.
  - split; [constructor | done].
  - case_bool_decide as Hv.
    + split; [done | intros HF; inversion HF; done].
    + rewrite IH. split.
      * intros HF; by constructor.
      * intros HF; by inversion HF.
Qed.

Lemma rangeBearer_Some (vs : list string) (v : string) :
  rangeBearer vs = Some v ↔
  ∃ l1 l2, vs = (l1 ++ v :: l2)%list ∧ Forall (λ x, x = "") l1 ∧ v ≠ "".
Proof.
  induction vs as [|x vs IH]; simpl.
  - split; [done | intros (l1 & l2 & Heq & _); by destruct l1].
  - case_bool_decide as Hx.
    + split.
      * intros [= ->]. exists [], vs. by repeat split.
      * intros (l1 & l2 & Heq & HF & Hv). destruct l1 as [|y l1]; simpl in Heq.
        -- congruence.
        -- injection Heq as Hy ->. subst y. by inversion HF.
    + subst x. rewrite IH. split.
      * intros (l1 & l2 & -> & HF & Hv). exists ("" :: l1), l2.
        repeat split; [by constructor | done].
      * intros (l1 & l2 & Heq & HF & Hv). destruct l1 as [|y l1]; simpl in Heq.
        -- congruence.
        -- injection Heq as Hy ->. subst y. exists l1, l2.
           repeat split; [by inversion HF | done].
Qed.

Lemma Header_Get_noValue (h : Values) :
  noValue h → http.Header_Get h jwtAuthKey = "".
Proof.
  unfold noValue, http.Header_Get. intros HF.
  destruct (h !!! jwtAuthKey); [done | by inversion HF].
Qed.

Lemma copyValues_lookup_total (dst src : Values) (k : string) :
  http.copyValues dst src !!! k = (dst !!! k ++ src !!! k)%list.
Proof.
  unfold http.copyValues, lookup_total, map_lookup_total.
  rewrite lookup_union_with.
  destruct (dst !! k), (src !! k); simpl; by rewrite ?app_nil_r.
Qed.

(** What [ParseForm] leaves in the request. *)

Lemma ParseForm_Form_Some (r : Request) :
  is_Some (http.Form (http.ParseForm ParseQuery parsePostForm r).2).
Proof.
  unfold http.ParseForm. repeat case_match; simplify_eq/=; eauto.
Qed.

Lemma ParseForm_parsed (r : Request) (f : Values) :
  http.Form r = Some f →
  http.Form (http.ParseForm ParseQuery parsePostForm r).2 = Some f.
Proof.
  intros Hf. unfold http.ParseForm. repeat case_match; simplify_eq/=; congruence.
Qed.

Lemma ParseForm_frame (r : Request) :
  let r' := (http.ParseForm ParseQuery parsePostForm r).2 in
  http.Method r' = http.Method r ∧ http.URL r' = http.URL r ∧
  http.Header r' = http.Header r ∧ http.ctx r' = http.ctx r.
Proof.
  unfold http.ParseForm. repeat case_match; simplify_eq/=; done.
Qed.

Lemma ParseForm_unparsed (r : Request) (k : string) :
  http.Form r = None →
  let r' := (http.ParseForm ParseQuery parsePostForm r).2 in
  default ∅ (http.Form r') !!! k =
  (default ∅ (http.PostForm r') !!! k ++ url.Query ParseQuery (http.URL r) !!! k)%list.
Proof.
  intros Hf. unfold http.ParseForm, url.Query.
  destruct (http.PostForm r) as [pf|] eqn:HP.
  - rewrite Hf. destruct (ParseQuery _) as [newValues e]. simpl. rewrite HP. simpl.
    case_bool_decide as Hpf.
    + by rewrite !copyValues_lookup_total, lookup_total_empty.
    + subst pf. by rewrite lookup_total_empty.
  - destruct (if bool_decide _ then _ else _) as [pf err]. simpl. rewrite Hf.
    destruct (ParseQuery _) as [newValues e]. simpl.
    case_bool_decide as Hpf.
    + by rewrite !copyValues_lookup_total, lookup_total_empty.
    + rewrite Hpf. by rewrite lookup_total_empty.
Qed.

Lemma ParseForm_body_error (r : Request) (e : error) :
  http.PostForm r = None →
  http.Method r = "POST" ∨ http.Method r = "PUT" ∨ http.Method r = "PATCH" →
  (parsePostForm r).2 = Some e →
  (http.ParseForm ParseQuery parsePostForm r).1 = Some e.
Proof.
  intros HP Hm He. unfold http.ParseForm. rewrite HP.
  rewrite (bool_decide_eq_true_2 _ Hm).
  destruct (parsePostForm r) as [pf err]. simpl in He. subst err. simpl.
  destruct (http.Form r); [done|]. by destruct (ParseQuery _).
Qed.

(** The third stage of [Bearer], reached when the header and the query
    hold no token. *)
Lemma Bearer_form_stage (r : Request) :
  http.Header_Get (http.Header r) jwtAuthKey = "" →
  rangeBearer (url.Query ParseQuery (http.URL r) !!! jwtAuthKey) = None →
  Bearer r =
    let '(err, r1) := http.ParseForm ParseQuery parsePostForm r in
    match err with
    | Some _ => ("", false, r1)
    | None =>
        let '(bearer, r2) := http.FormValue ParseMultipartForm r1 jwtAuthKey in
        if bool_decide (bearer ≠ "")
        then (bearer, true, http.set_PostForm r2 (delete jwtAuthKey <$> http.PostForm r2))
        else ("", false, r2)
    end.
Proof.
  intros Hh Hq. unfold Bearer. rewrite Hh, Hq.
  by rewrite bool_decide_eq_false_2 by (intros H; by apply H).
Qed.

(** C10. Whenever [Bearer] reports that it found a token, the token it
    returns is not the empty string: the pair [("", true)] is never
    returned. *)
Theorem Bearer_found_nonempty (r r' : Request) (bearer : string) :
  Bearer r = (bearer, true, r') → bearer ≠ "".
Proof.
  unfold Bearer. case_bool_decide as Hh.
  { by intros [= <- _]. }
  destruct (rangeBearer _) as [q|] eqn:Hq.
  { intros [= <- _]. apply rangeBearer_Some in Hq as (_ & _ & _ & _ & Hne). done. }
  destruct (http.ParseForm _ _ _) as [[e|] r1]; [done|].
  destruct (http.FormValue _ _ _) as [b r2].
  case_bool_decide as Hb; [|done]. by intros [= <- _].
Qed.

(** C5. [Bearer] selects the token by fixed precedence: a non-empty
    [Authorization] header value is returned first; otherwise the first
    non-empty value among the (possibly repeated) [Authorization] query
    parameters is returned; in both cases the request is left as it is,
    its form not parsed.  Only when the header and the query hold no
    non-empty value is the form parsed and consulted. *)
Theorem Bearer_precedence (r : Request) :
  let h := http.Header_Get (http.Header r) jwtAuthKey in
  let q := url.Query ParseQuery (http.URL r) !!! jwtAuthKey in
  (h ≠ "" → Bearer r = (h, true, r)) ∧
  (h = "" → ∀ l1 v l2,
     q = (l1 ++ v :: l2)%list → Forall (λ x, x = "") l1 → v ≠ "" →
     Bearer r = (v, true, r)) ∧
  (h = "" → Forall (λ x, x = "") q →
     Bearer r =
       let '(err, r1) := http.ParseForm ParseQuery parsePostForm r in
       match err with
       | Some _ => ("", false, r1)
       | None =>
           let '(bearer, r2) := http.FormValue ParseMultipartForm r1 jwtAuthKey in
           if bool_decide (bearer ≠ "")
           then (bearer, true,
                 http.set_PostForm r2 (delete jwtAuthKey <$> http.PostForm r2))
           else ("", false, r2)
       end).
Proof.
  intros h q. split; [|split].
  - intros Hh. unfold Bearer. fold h. by rewrite bool_decide_eq_true_2.
  - intros Hh l1 v l2 Hq Hl1 Hv. unfold Bearer. fold h q. rewrite Hh.
    rewrite bool_decide_eq_false_2 by (intros H; by apply H).
    assert (rangeBearer q = Some v) as ->; [|done].
    apply rangeBearer_Some. by exists l1, l2.
  - intros Hh Hq. apply Bearer_form_stage; [done|]. by apply rangeBearer_None.
Qed.

(** C8. When neither the header nor the query yields a non-empty
    [Authorization] value and [r.ParseForm()] fails (as it does when the
    body cannot be decoded as a form, see [ParseForm_body_error]),
    [Bearer] returns the empty token with [false]: the error is not
    propagated. *)
Theorem Bearer_ParseForm_error (r : Request) (e : error) :
  http.Header_Get (http.Header r) jwtAuthKey = "" →
  noValue (url.Query ParseQuery (http.URL r)) →
  (http.ParseForm ParseQuery parsePostForm r).1 = Some e →
  Bearer r = ("", false, (http.ParseForm ParseQuery parsePostForm r).2).
Proof.
  intros Hh Hq He. rewrite Bearer_form_stage; [|done|by apply rangeBearer_None].
  destruct (http.ParseForm _ _ _) as [err r1]. simpl in He. by subst err.
Qed.

Lemma FormValue_parsed (r : Request) (f : Values) (key : string) :
  http.Form r = Some f →
  http.FormValue ParseMultipartForm r key = (http.Header_Get f key, r).
Proof.
  intros Hf. unfold http.FormValue, http.Header_Get. rewrite Hf. simpl. rewrite Hf. simpl.
  by destruct (f !!! key).
Qed.

(** No token anywhere: [Bearer] reports not-found. *)
Lemma Bearer_not_found (r : Request) :
  noValue (http.Header r) →
  noValue (url.Query ParseQuery (http.URL r)) →
  noValue (default ∅ (http.PostForm (http.ParseForm ParseQuery parsePostForm r).2)) →
  (∀ f, http.Form r = Some f → noValue f) →
  ∃ r', Bearer r = ("", false, r').
Proof.
  intros Hh Hq Hb Hf.
  rewrite Bearer_form_stage;
    [|by apply Header_Get_noValue|by apply rangeBearer_None].
  pose proof (ParseForm_Form_Some r) as [f1 Hf1].
  pose proof (ParseForm_unparsed r jwtAuthKey) as Hun.
  pose proof (ParseForm_parsed r) as Hpa.
  destruct (http.ParseForm _ _ _) as [[e|] r1]; [by eexists|].
  simpl in *. rewrite (FormValue_parsed _ _ _ Hf1).
  assert (noValue f1) as HF1.
  { destruct (http.Form r) as [f|] eqn:HForm.
    - specialize (Hpa f eq_refl). rewrite Hf1 in Hpa. simplify_eq. eauto.
    - specialize (Hun eq_refl). rewrite Hf1 in Hun. simpl in Hun.
      unfold noValue. rewrite Hun. by apply Forall_app_2. }
  rewrite (Header_Get_noValue _ HF1). by exists r1.
Qed.

(** A token found in the form: [Bearer] deletes the key from
    [r.PostForm] and leaves [r.Form], where it read the token, as
    [ParseForm] filled it. *)
Lemma Bearer_form_found (r r' : Request) (bearer : string) :
  http.Header_Get (http.Header r) jwtAuthKey = "" →
  noValue (url.Query ParseQuery (http.URL r)) →
  Bearer r = (bearer, true, r') →
  let r1 := (http.ParseForm ParseQuery parsePostForm r).2 in
  r' = http.set_PostForm r1 (delete jwtAuthKey <$> http.PostForm r1) ∧
  ∃ vs, default ∅ (http.Form r1) !!! jwtAuthKey = bearer :: vs.
Proof.
  intros Hh Hq.
  rewrite Bearer_form_stage; [|done|by apply rangeBearer_None].
  pose proof (ParseForm_Form_Some r) as [f1 Hf1].
  destruct (http.ParseForm _ _ _) as [[e|] r1]; [done|].
  simpl in *. rewrite (FormValue_parsed _ _ _ Hf1). rewrite Hf1. simpl.
  unfold http.Header_Get.
  destruct (f1 !!! jwtAuthKey) as [|v vs] eqn:Hv; [done|].
  case_bool_decide; [|done]. intros [= <- <-]. eauto.
Qed.

(** After a token was found in the form, the key is absent from
    [r.PostForm], whose other fields are unchanged. *)
Lemma Bearer_form_PostForm (r r' : Request) (bearer : string) :
  http.Header_Get (http.Header r) jwtAuthKey = "" →
  noValue (url.Query ParseQuery (http.URL r)) →
  Bearer r = (bearer, true, r') →
  let r1 := (http.ParseForm ParseQuery parsePostForm r).2 in
  default ∅ (http.PostForm r') !! jwtAuthKey = None ∧
  ∀ k, k ≠ jwtAuthKey →
    default ∅ (http.PostForm r') !! k = default ∅ (http.PostForm r1) !! k.
Proof.
  intros Hh Hq HB. destruct (Bearer_form_found _ _ _ Hh Hq HB) as [-> _].
  simpl. destruct (http.PostForm _) as [pf|]; simpl.
  - split; [apply lookup_delete_eq|]. intros k Hk. by apply lookup_delete_ne.
  - done.
Qed.

(** After a token was found in the form, [r.FormValue("Authorization")]
    still returns the token. *)
Lemma Bearer_form_FormValue (r r' : Request) (bearer : string) :
  http.Header_Get (http.Header r) jwtAuthKey = "" →
  noValue (url.Query ParseQuery (http.URL r)) →
  Bearer r = (bearer, true, r') →
  http.FormValue ParseMultipartForm r' jwtAuthKey = (bearer, r').
Proof.
  intros Hh Hq HB. destruct (Bearer_form_found _ _ _ Hh Hq HB) as [-> [vs Hvs]].
  pose proof (ParseForm_Form_Some r) as [f1 Hf1].
  rewrite (FormValue_parsed _ f1); [|done].
  rewrite Hf1 in Hvs. simpl in Hvs. unfold http.Header_Get. by rewrite Hvs.
Qed.

(** [Bearer] does not touch the context of the request. *)
Lemma Bearer_ctx (r r' : Request) (bearer : string) (ok : bool) :
  Bearer r = (bearer, ok, r') → http.Context r' = http.Context r.
Proof.
  unfold Bearer. case_bool_decide; [by intros [= _ _ <-]|].
  destruct (rangeBearer _); [by intros [= _ _ <-]|].
  pose proof (ParseForm_frame r) as (_ & _ & _ & Hctx).
  pose proof (ParseForm_Form_Some r) as [f1 Hf1].
  destruct (http.ParseForm _ _ _) as [[e|] r1]; simpl in *; [by intros [= _ _ <-]|].
  rewrite (FormValue_parsed _ _ _ Hf1).
  case_bool_decide; by intros [= _ _ <-].
Qed.

(** ** The gate *)

(** The callback accepts the methods of the HMAC family, for which it
    returns the secret as the key, and no other. *)
Lemma keyFunc_HMAC (secret name : string) (token : Token) :
  jwt.Method token = Some (jwt.SigningMethodHMAC name) →
  keyFunc secret token = (Some (list_byte_of_string secret), None).
Proof. intros Hm. unfold keyFunc. by rewrite Hm. Qed.

Lemma keyFunc_not_HMAC (secret : string) (token : Token) :
  (∀ name, jwt.Method token ≠ Some (jwt.SigningMethodHMAC name)) →
  keyFunc secret token =
    (None,
     Some (errorString
             ("unexpected signing method: " ++ fmt_v (jwt.Header token !! "alg")))).
Proof.
  intros Hm. unfold keyFunc.
  destruct (jwt.Method token) as [[name| | | |]|]; try done. by destruct (Hm name).
Qed.

(** C3. When no non-empty [Authorization] value exists in the header, in
    the query parameters or in the form body (nor in [r.Form], for a
    request that was parsed before it reached the gate), the gate replies
    with status 401 and the message ["no JSON web token in request"],
    whatever the next handler is: the next handler is not called. *)
Theorem JwtHS256_no_token (r : Request) :
  noValue (http.Header r) →
  noValue (url.Query ParseQuery (http.URL r)) →
  noValue (default ∅ (http.PostForm (http.ParseForm ParseQuery parsePostForm r).2)) →
  (∀ f, http.Form r = Some f → noValue f) →
  ∀ secret cf next w,
    JwtHS256 secret cf next w r =
    http_Error w "no JSON web token in request" http.StatusUnauthorized.
Proof.
  intros Hh Hq Hb Hf secret cf next w.
  destruct (Bearer_not_found r Hh Hq Hb Hf) as [r' HB].
  unfold JwtHS256. by rewrite HB.
Qed.

(** C6. When the located token fails to parse or verify, for whatever
    reason, the gate replies with status 403 and the message of the
    parser's error, whatever the next handler is: the next handler is not
    called. *)
Theorem JwtHS256_parse_error (secret : string) (cf : unit → Claims)
    (r r' : Request) (bearer : string) (token : Token) (e : error) :
  Bearer r = (bearer, true, r') →
  jwt.ParseWithClaims ParseUnverified verify bearer (cf tt) (keyFunc secret)
    = (token, Some e) →
  ∀ next w,
    JwtHS256 secret cf next w r = http_Error w (Error e) http.StatusForbidden.
Proof.
  intros HB HP next w. unfold JwtHS256. rewrite HB. simpl. by rewrite HP.
Qed.

(** The reasons for which the parse fails: the token cannot be decoded,
    its method is not of the HMAC family, or it does not verify with the
    secret. *)
Lemma ParseWithClaims_error (secret : string) (c : Claims) (bearer : string)
    (token : Token) (e : error) :
  jwt.ParseWithClaims ParseUnverified verify bearer c (keyFunc secret)
    = (token, Some e) ↔
  ParseUnverified bearer c = (token, Some e) ∨
  (ParseUnverified bearer c = (token, None) ∧
   (∀ name, jwt.Method token ≠ Some (jwt.SigningMethodHMAC name)) ∧
   e = errorString
         ("unexpected signing method: " ++ fmt_v (jwt.Header token !! "alg"))) ∨
  (∃ token0 name,
     ParseUnverified bearer c = (token0, None) ∧
     jwt.Method token0 = Some (jwt.SigningMethodHMAC name) ∧
     verify token0 (Some (list_byte_of_string secret)) = (token, Some e)).
Proof.
  unfold jwt.ParseWithClaims.
  destruct (ParseUnverified bearer c) as [token0 [e0|]].
  { split; [intros [= <- <-]; by left|].
    intros [[= <- <-]|[(? & _)|(? & ? & ? & _)]]; done. }
  destruct (jwt.Method token0) as [[name| | | |]|] eqn:Hm;
    [rewrite (keyFunc_HMAC _ name _ Hm)
    |rewrite keyFunc_not_HMAC by (intros ?; by rewrite Hm)..].
  1: { split.
       - intros Hv. right. right. by exists token0, name.
       - intros [?|[([= <-] & Hn & _)|(t & n & [= <-] & _ & Hv)]]; try done.
         by destruct (Hn name). }
  all: split;
    [ intros [= <- <-]; right; left; repeat split; intros ?; by rewrite Hm
    | intros [?|[([= <-] & _ & ->)|(t & n & [= <-] & Hn & _)]]; try done;
      by rewrite Hm in Hn ].
Qed.

(** C1. When the decoded header of the token declares a signing method
    outside the HMAC family (RSA, ECDSA, "none", or a method the library
    does not know), the gate replies with status 403, whatever the
    signature segment is, whatever the verification of the library would
    say and whatever the next handler is: the next handler is not
    called. *)
Theorem JwtHS256_not_HMAC (secret : string) (cf : unit → Claims)
    (r r' : Request) (bearer : string) (token : Token) (err : option error) :
  Bearer r = (bearer, true, r') →
  ParseUnverified bearer (cf tt) = (token, err) →
  (∀ name, jwt.Method token ≠ Some (jwt.SigningMethodHMAC name)) →
  ∃ body, ∀ next w,
    JwtHS256 secret cf next w r = http_Error w body http.StatusForbidden.
Proof.
  intros HB HP Hm.
  exists (match err with
          | Some e => Error e
          | None => "unexpected signing method: " ++ fmt_v (jwt.Header token !! "alg")
          end).
  intros next w. unfold JwtHS256, jwt.ParseWithClaims. rewrite HB. simpl. rewrite HP.
  destruct err as [e|]; [done|]. by rewrite (keyFunc_not_HMAC _ _ Hm).
Qed.

(** [GetClaimsFromContext] reads back what the gate stored. *)
Lemma GetClaimsFromContext_WithValue (ctx : Context) (c : Claims) :
  GetClaimsFromContext (context.WithValue ctx claimsKey (toInterface c)) = c.
Proof.
  unfold GetClaimsFromContext. simpl. by destruct c.
Qed.

(** C2. When the token is of the HMAC family, verifies with the secret
    of the gate and is [Valid], the gate calls the next handler on the
    request whose context is the context of the incoming request
    extended with the decoded claims, and [GetClaimsFromContext] on that
    context returns these claims. *)
Theorem JwtHS256_valid (secret : string) (cf : unit → Claims)
    (r r' : Request) (bearer name : string) (token0 token : Token) :
  Bearer r = (bearer, true, r') →
  ParseUnverified bearer (cf tt) = (token0, None) →
  jwt.Method token0 = Some (jwt.SigningMethodHMAC name) →
  verify token0 (Some (list_byte_of_string secret)) = (token, None) →
  jwt.Valid token = true →
  let ctx := context.WithValue (http.Context r) claimsKey (toInterface (jwt.Claims token)) in
  (∀ next w, JwtHS256 secret cf next w r = next w (http.WithContext r' ctx)) ∧
  GetClaimsFromContext (http.Context (http.WithContext r' ctx)) = jwt.Claims token.
Proof.
  intros HB HP Hm Hv HV ctx. split.
  - intros next w. unfold JwtHS256, jwt.ParseWithClaims. rewrite HB. simpl.
    rewrite HP, (keyFunc_HMAC _ _ _ Hm), Hv, HV. simpl.
    by rewrite (Bearer_ctx _ _ _ _ HB).
  - apply GetClaimsFromContext_WithValue.
Qed.

(** C9. On a context that holds no value under [claimsKey], or a value
    that is not a [Claims], [GetClaimsFromContext] returns the zero value
    of [Claims], the [nil] interface; being a total function it returns
    on every context. *)
Theorem GetClaimsFromContext_zero (ctx : Context) :
  context.Value ctx claimsKey = None ∨
  (∃ v, context.Value ctx claimsKey = Some (ofOther v)) →
  GetClaimsFromContext ctx = None.
Proof.
  unfold GetClaimsFromContext. by intros [->|[v ->]].
Qed.

(** ** Further properties of the token locator *)

Lemma ParseForm_again (r : Request) (pf f : Values) :
  http.PostForm r = Some pf → http.Form r = Some f →
  http.ParseForm ParseQuery parsePostForm r = (None, r).
Proof. intros HP HF. unfold http.ParseForm. by rewrite HP, HF. Qed.

Lemma ParseForm_PostForm_Some (r : Request) :
  is_Some (http.PostForm (http.ParseForm ParseQuery parsePostForm r).2).
Proof.
  unfold http.ParseForm. repeat case_match; simplify_eq/=; eauto.
Qed.

Lemma Bearer_form_found_ne (r r' : Request) (bearer : string) :
  http.Header_Get (http.Header r) jwtAuthKey = "" →
  noValue (url.Query ParseQuery (http.URL r)) →
  Bearer r = (bearer, true, r') → bearer ≠ "".
Proof.
  intros Hh Hq.
  rewrite Bearer_form_stage; [|done|by apply rangeBearer_None].
  destruct (http.ParseForm _ _ _) as [[e|] r1]; [done|].
  destruct (http.FormValue _ _ _) as [b r2].
  case_bool_decide; [|done]. by intros [= <- _].
Qed.


(** X2. When [Bearer] reports that it found no token, the string it returns
    is empty, whatever was read on the way. *)
Theorem Bearer_not_found_empty (r r' : Request) (bearer : string) :
  Bearer r = (bearer, false, r') → bearer = "".
Proof.
  unfold Bearer. case_bool_decide; [done|].
  destruct (rangeBearer _); [done|].
  destruct (http.ParseForm _ _ _) as [[e|] r1]; [by intros [= <- _]|].
  destruct (http.FormValue _ _ _) as [b r2].
  case_bool_decide; [done|]. by intros [= <- _].
Qed.

(** X3. [Bearer] is idempotent on a request in which it found a token: run
    again on the request it left, it finds the same token and leaves the
    request as it is.  This holds for a token of the form body too: the
    form is not parsed a second time, and the token is read from
    [r.Form] again. *)
Theorem Bearer_idempotent (r r' : Request) (bearer : string) :
  Bearer r = (bearer, true, r') → Bearer r' = (bearer, true, r').
Proof.
  intros HB.
  destruct (decide (http.Header_Get (http.Header r) jwtAuthKey = "")) as [Hh|Hh].
  2: { revert HB. unfold Bearer at 1. rewrite bool_decide_eq_true_2 by done.
       intros [= <- <-]. unfold Bearer. by rewrite bool_decide_eq_true_2. }
  destruct (rangeBearer (url.Query ParseQuery (http.URL r) !!! jwtAuthKey))
    as [q|] eqn:Hq.
  { revert HB. unfold Bearer at 1. rewrite Hh, Hq. simpl.
    intros [= <- <-]. unfold Bearer. by rewrite Hh, Hq. }
  apply rangeBearer_None in Hq.
  destruct (Bearer_form_found _ _ _ Hh Hq HB) as [Hr' [vs Hvs]].
  assert (http.URL r' = http.URL r ∧ http.Header r' = http.Header r) as [HU HH].
  { pose proof (ParseForm_frame r) as (_ & HU & HH & _). by rewrite Hr'. }
  pose proof (ParseForm_Form_Some r) as [f1 Hf1].
  pose proof (ParseForm_PostForm_Some r) as [pf1 Hpf1].
  rewrite Hf1 in Hvs. simpl in Hvs.
  assert (http.Form r' = Some f1) as HF' by (by rewrite Hr').
  assert (http.PostForm r' = Some (delete jwtAuthKey pf1)) as HP'
    by (by rewrite Hr'; simpl; rewrite Hpf1).
  rewrite Bearer_form_stage;
    [|by rewrite HH|rewrite HU; by apply rangeBearer_None].
  rewrite (ParseForm_again _ _ _ HP' HF'), (FormValue_parsed _ _ _ HF').
  unfold http.Header_Get. rewrite Hvs.
  rewrite bool_decide_eq_true_2 by (by eapply Bearer_form_found_ne).
  rewrite HP'. simpl. rewrite delete_delete_eq.
  f_equal. rewrite <- HP'. by destruct r'.
Qed.

(** The form stage on a request that was not parsed before. *)

Lemma ParseForm_PostForm_fresh (r : Request) :
  http.PostForm r = None →
  http.PostForm (http.ParseForm ParseQuery parsePostForm r).2 =
    Some (if bool_decide (http.Method r = "POST" ∨ http.Method r = "PUT" ∨
                          http.Method r = "PATCH")
          then default ∅ (parsePostForm r).1 else ∅).
Proof.
  intros HP. unfold http.ParseForm. rewrite HP.
  case_bool_decide; [destruct (parsePostForm r) as [[pf|] err]|]; simpl;
    destruct (http.Form r); simpl; try done; by destruct (ParseQuery _).
Qed.

Lemma ParseForm_query_error (r : Request) (e : error) :
  http.Form r = None →
  (ParseQuery (url.RawQuery (http.URL r))).2 = Some e →
  is_Some (http.ParseForm ParseQuery parsePostForm r).1.
Proof.
  intros HF He. unfold http.ParseForm.
  destruct (match http.PostForm r with None => _ | Some _ => _ end) as [err r1] eqn:H1.
  assert (http.Form r1 = None ∧ http.URL r1 = http.URL r) as [-> ->].
  { destruct (http.PostForm r); [by injection H1 as _ <-|].
    destruct (if bool_decide _ then _ else _) as [pf err0]. by injection H1 as _ <-. }
  destruct (ParseQuery _) as [nv e0]. simpl in He. subst e0. simpl.
  destruct err; eauto.
Qed.

Lemma ParseForm_no_error (r : Request) :
  http.PostForm r = None → http.Form r = None →
  (parsePostForm r).2 = None →
  (ParseQuery (url.RawQuery (http.URL r))).2 = None →
  (http.ParseForm ParseQuery parsePostForm r).1 = None.
Proof.
  intros HP HF Hb Hq. unfold http.ParseForm. rewrite HP.
  destruct (parsePostForm r) as [pf err]. simpl in Hb. subst err.
  case_bool_decide; simpl; rewrite HF;
    destruct (ParseQuery _) as [nv e]; simpl in Hq; by subst e.
Qed.

Lemma Bearer_unparsed (r : Request) :
  http.Form r = None →
  http.Header_Get (http.Header r) jwtAuthKey = "" →
  noValue (url.Query ParseQuery (http.URL r)) →
  (Bearer r).1 =
    match (http.ParseForm ParseQuery parsePostForm r).1 with
    | Some _ => ("", false)
    | None =>
        let v := http.Header_Get
                   (default ∅ (http.PostForm (http.ParseForm ParseQuery parsePostForm r).2))
                   jwtAuthKey in
        (v, bool_decide (v ≠ ""))
    end.
Proof.
  intros HF Hh Hq.
  rewrite Bearer_form_stage; [|done|by apply rangeBearer_None].
  pose proof (ParseForm_Form_Some r) as [f1 Hf1].
  pose proof (ParseForm_unparsed r jwtAuthKey HF) as Hun.
  destruct (http.ParseForm _ _ _) as [[e|] r1]; [done|]. simpl in *.
  rewrite (FormValue_parsed _ _ _ Hf1). rewrite Hf1 in Hun. simpl in Hun.
  assert (http.Header_Get f1 jwtAuthKey =
          http.Header_Get (default ∅ (http.PostForm r1)) jwtAuthKey) as ->.
  { unfold http.Header_Get. rewrite Hun.
    destruct (default ∅ (http.PostForm r1) !!! jwtAuthKey) as [|v vs]; [|done].
    simpl. unfold noValue in Hq.
    destruct (url.Query _ _ !!! jwtAuthKey); [done|by inversion Hq]. }
  case_bool_decide as Hv; [done|]. by rewrite Hv.
Qed.

(** X4. On a request that was not parsed before, [Bearer] finds a token
    exactly when the first header value is not empty, or some query
    value is not empty, or [ParseForm] succeeds and the first value of
    the field in the body is not empty. *)
Theorem Bearer_found_iff (r : Request) :
  http.Form r = None →
  (Bearer r).1.2 = true ↔
  http.Header_Get (http.Header r) jwtAuthKey ≠ "" ∨
  ¬ noValue (url.Query ParseQuery (http.URL r)) ∨
  ((http.ParseForm ParseQuery parsePostForm r).1 = None ∧
   http.Header_Get
     (default ∅ (http.PostForm (http.ParseForm ParseQuery parsePostForm r).2))
     jwtAuthKey ≠ "").
Proof.
  intros HF.
  destruct (decide (http.Header_Get (http.Header r) jwtAuthKey = "")) as [Hh|Hh].
  2: { split; [by left|]. intros _. unfold Bearer. by rewrite bool_decide_eq_true_2. }
  destruct (rangeBearer (url.Query ParseQuery (http.URL r) !!! jwtAuthKey))
    as [q|] eqn:Hq.
  { assert (¬ noValue (url.Query ParseQuery (http.URL r))) as Hn.
    { intros HN. apply rangeBearer_None in HN. congruence. }
    split; [by right; left|]. intros _. unfold Bearer. by rewrite Hh, Hq. }
  apply rangeBearer_None in Hq. rewrite (Bearer_unparsed r HF Hh Hq).
  destruct (http.ParseForm _ _ _).1 as [e|]; simpl.
  - split; [done|]. by intros [?|[?|[? _]]].
  - rewrite bool_decide_eq_true. split; [by right; right|].
    by intros [?|[?|[_ ?]]].
Qed.

(** X5. A query that does not decode hides the token of the form body: with
    nothing in the header and no non-empty value among the query
    parameters that did decode, [Bearer] on a request not parsed before
    reports not-found whatever the body holds, because [ParseForm]
    reports the error that [URL.Query] dropped. *)
Theorem Bearer_query_error (r : Request) (e : error) :
  http.Form r = None →
  http.Header_Get (http.Header r) jwtAuthKey = "" →
  noValue (url.Query ParseQuery (http.URL r)) →
  (ParseQuery (url.RawQuery (http.URL r))).2 = Some e →
  (Bearer r).1 = ("", false).
Proof.
  intros HF Hh Hq He. rewrite (Bearer_unparsed r HF Hh Hq).
  by destruct (ParseForm_query_error r e HF He) as [e' ->].
Qed.

(** X6. The body is read for POST, PUT and PATCH only: on a request of
    another method that was not parsed before, with nothing in the header
    and in the query, [Bearer] reports not-found without decoding the
    body. *)
Theorem Bearer_body_not_read (r : Request) :
  http.Form r = None → http.PostForm r = None →
  ¬ (http.Method r = "POST" ∨ http.Method r = "PUT" ∨ http.Method r = "PATCH") →
  http.Header_Get (http.Header r) jwtAuthKey = "" →
  noValue (url.Query ParseQuery (http.URL r)) →
  (Bearer r).1 = ("", false).
Proof.
  intros HF HP Hm Hh Hq. rewrite (Bearer_unparsed r HF Hh Hq).
  rewrite (ParseForm_PostForm_fresh r HP), bool_decide_eq_false_2 by done.
  by destruct (http.ParseForm _ _ _).1.
Qed.

(** X7. Of a repeated form field only the first value counts: when the first
    [Authorization] value of the body is empty, [Bearer] reports
    not-found even if a later value is not, unlike for the query
    parameters, among which it takes the first non-empty one. *)
Theorem Bearer_form_first_empty (r : Request) (pf : Values) (vs : list string) :
  http.Form r = None → http.PostForm r = None →
  http.Method r = "POST" ∨ http.Method r = "PUT" ∨ http.Method r = "PATCH" →
  (parsePostForm r).1 = Some pf →
  pf !!! jwtAuthKey = "" :: vs →
  http.Header_Get (http.Header r) jwtAuthKey = "" →
  noValue (url.Query ParseQuery (http.URL r)) →
  (Bearer r).1 = ("", false).
Proof.
  intros HF HP Hm Hpf Hv Hh Hq. rewrite (Bearer_unparsed r HF Hh Hq).
  rewrite (ParseForm_PostForm_fresh r HP), bool_decide_eq_true_2 by done.
  rewrite Hpf. simpl. unfold http.Header_Get. rewrite Hv.
  by destruct (http.ParseForm _ _ _).1.
Qed.

(** X8. A token in the body of a POST, PUT or PATCH request that was not
    parsed before: when the header and the query hold none and the body
    and the query decode, [Bearer] returns the first value of the field
    and leaves in [r.PostForm] the decoded body without the field. *)
Theorem Bearer_form_first_value (r : Request) (pf : Values) (v : string)
    (vs : list string) :
  http.Form r = None → http.PostForm r = None →
  http.Method r = "POST" ∨ http.Method r = "PUT" ∨ http.Method r = "PATCH" →
  parsePostForm r = (Some pf, None) →
  (ParseQuery (url.RawQuery (http.URL r))).2 = None →
  pf !!! jwtAuthKey = v :: vs → v ≠ "" →
  http.Header_Get (http.Header r) jwtAuthKey = "" →
  noValue (url.Query ParseQuery (http.URL r)) →
  ∃ r', Bearer r = (v, true, r') ∧
        http.PostForm r' = Some (delete jwtAuthKey pf).
Proof.
  intros HF HP Hm Hpf Hqe Hv Hne Hh Hq.
  pose proof (Bearer_unparsed r HF Hh Hq) as HB.
  rewrite (ParseForm_no_error r HP HF), (ParseForm_PostForm_fresh r HP) in HB;
    [|by rewrite Hpf|done].
  rewrite bool_decide_eq_true_2, Hpf in HB by done. simpl in HB.
  unfold http.Header_Get in HB. rewrite Hv in HB.
  rewrite bool_decide_eq_true_2 in HB by done.
  destruct (Bearer r) as [[b ok] r'] eqn:HBr. simpl in HB. injection HB as -> ->.
  exists r'. split; [done|].
  destruct (Bearer_form_found _ _ _ Hh Hq HBr) as [-> _]. simpl.
  rewrite (ParseForm_PostForm_fresh r HP), bool_decide_eq_true_2 by done.
  by rewrite Hpf.
Qed.

(** X9. On a request that a handler before the gate has parsed already,
    [Bearer] does not decode the body again and reports no decoding
    error: with nothing in the header and in the query, the token is the
    first [Authorization] value of [r.Form] as it stands, and finding it
    deletes the field from [r.PostForm] and changes nothing else. *)
Theorem Bearer_parsed (r : Request) (pf f : Values) :
  http.PostForm r = Some pf → http.Form r = Some f →
  http.Header_Get (http.Header r) jwtAuthKey = "" →
  noValue (url.Query ParseQuery (http.URL r)) →
  Bearer r =
    let v := http.Header_Get f jwtAuthKey in
    if bool_decide (v ≠ "")
    then (v, true, http.set_PostForm r (Some (delete jwtAuthKey pf)))
    else ("", false, r).
Proof.
  intros HP HF Hh Hq.
  rewrite Bearer_form_stage; [|done|by apply rangeBearer_None].
  rewrite (ParseForm_again _ _ _ HP HF), (FormValue_parsed _ _ _ HF). simpl.
  by rewrite HP.
Qed.

(** ** Further properties of the gate *)

(** X10. Every request ends in one of three ways: the reply 401 for a missing
    token, a reply 403, or the call of the next handler.  The next
    handler is called only for a token whose method is of the HMAC
    family and whose verification with the secret of the gate reported no
    error and left the token [Valid]; the request it receives carries the
    claims of that token on top of the context of the incoming request. *)
Theorem JwtHS256_outcomes (secret : string) (cf : unit → Claims) (r : Request) :
  (∀ next w,
     JwtHS256 secret cf next w r =
     http_Error w "no JSON web token in request" http.StatusUnauthorized) ∨
  (∃ body, ∀ next w,
     JwtHS256 secret cf next w r = http_Error w body http.StatusForbidden) ∨
  (∃ bearer r' token0 name token,
     Bearer r = (bearer, true, r') ∧
     ParseUnverified bearer (cf tt) = (token0, None) ∧
     jwt.Method token0 = Some (jwt.SigningMethodHMAC name) ∧
     verify token0 (Some (list_byte_of_string secret)) = (token, None) ∧
     jwt.Valid token = true ∧
     ∀ next w,
       JwtHS256 secret cf next w r =
       next w (http.WithContext r'
                 (context.WithValue (http.Context r) claimsKey
                    (toInterface (jwt.Claims token))))).
Proof.
  unfold JwtHS256, jwt.ParseWithClaims.
  destruct (Bearer r) as [[bearer [|]] r'] eqn:HB; simpl; [|by left].
  right. destruct (ParseUnverified bearer (cf tt)) as [token0 [e|]] eqn:HP.
  { left. by exists (Error e). }
  destruct (jwt.Method token0) as [[name| | | |]|] eqn:Hm.
  2-6: left; eexists; intros next w;
       by rewrite keyFunc_not_HMAC by (intros ?; by rewrite Hm).
  rewrite (keyFunc_HMAC _ _ _ Hm).
  destruct (verify token0 _) as [token [e|]] eqn:Hv.
  { left. by exists (Error e). }
  destruct (jwt.Valid token) eqn:HV; simpl.
  - right. exists bearer, r', token0, name, token. repeat split; try done.
    intros next w. by rewrite (Bearer_ctx _ _ _ _ HB).
  - left. by exists "token is invalid".
Qed.

(** X11. The reply to a token that decodes but declares a method outside the
    HMAC family names the algorithm of its header: the message is
    ["unexpected signing method: "] followed by the [alg] value. *)
Theorem JwtHS256_not_HMAC_message (secret : string) (cf : unit → Claims)
    (r r' : Request) (bearer : string) (token : Token) :
  Bearer r = (bearer, true, r') →
  ParseUnverified bearer (cf tt) = (token, None) →
  (∀ name, jwt.Method token ≠ Some (jwt.SigningMethodHMAC name)) →
  ∀ next w,
    JwtHS256 secret cf next w r =
    http_Error w ("unexpected signing method: " ++ fmt_v (jwt.Header token !! "alg"))
      http.StatusForbidden.
Proof.
  intros HB HP Hm next w. unfold JwtHS256, jwt.ParseWithClaims.
  rewrite HB. simpl. by rewrite HP, (keyFunc_not_HMAC _ _ Hm).
Qed.

(** X12. [claimsKey] does not collide: whatever other packages bind under
    their own keys on top of a context, [GetClaimsFromContext] returns
    what it returned before. *)
Theorem GetClaimsFromContext_foreign (ctx : Context)
    (kvs : list (string * option (ctxValue claims value))) :
  GetClaimsFromContext
    (foldr (λ kv c, context.WithValue c (foreignKey kv.1) kv.2) ctx kvs)
  = GetClaimsFromContext ctx.
Proof.
  induction kvs as [|[k v] kvs IH]; [done|].
  rewrite <- IH. unfold GetClaimsFromContext. by simpl.
Qed.

End mw.


(** ** The key of the verification *)

Section verifier.
Context {claims value : Type}.
Abbreviation Request := (http.Request ctxKey (ctxValue claims value)).
Abbreviation Token := (jwt.Token claims value).
Variable ParseQuery : string → Values * option error.
Variable parsePostForm : Request → option Values * option error.
Variable ParseMultipartForm : Request → Request.
Variable ResponseWriter : Type.
Variable http_Error : ResponseWriter → string → Z → ResponseWriter.
Variable ParseUnverified : string → @Claims claims → Token * option error.
Variable fmt_v : option value → string.
Variables verify1 verify2 : Token → option (list Byte.byte) → Token * option error.

(** X13. The gate verifies with its secret and with nothing else: two
    verifiers that agree under the key [[]byte(secret)] give the same
    gate, however they differ under other keys or under no key. *)
Theorem JwtHS256_key_is_secret (secret : string) :
  (∀ t, verify1 t (Some (list_byte_of_string secret))
        = verify2 t (Some (list_byte_of_string secret))) →
  ∀ cf next w r,
    JwtHS256 ParseQuery parsePostForm ParseMultipartForm ResponseWriter http_Error
      ParseUnverified verify1 fmt_v secret cf next w r =
    JwtHS256 ParseQuery parsePostForm ParseMultipartForm ResponseWriter http_Error
      ParseUnverified verify2 fmt_v secret cf next w r.
Proof.
  intros Hv cf next w r. unfold JwtHS256, jwt.ParseWithClaims.
  destruct (Bearer _ _ _ r) as [[bearer ok] r']. destruct ok; simpl; [|done].
  destruct (ParseUnverified bearer (cf tt)) as [token0 [e|]]; [done|].
  unfold keyFunc. destruct (jwt.Method token0) as [[name| | | |]|]; try done.
  by rewrite Hv.
Qed.
End verifier.

(** ** The gate over the parser of the library *)

Section validation.
Context {claims value : Type}.
Abbreviation Request := (http.Request ctxKey (ctxValue claims value)).
Abbreviation Token := (jwt.Token claims value).
Variable ParseQuery : string → Values * option error.
Variable parsePostForm : Request → option Values * option error.
Variable ParseMultipartForm : Request → Request.
Variable ResponseWriter : Type.
Variable http_Error : ResponseWriter → string → Z → ResponseWriter.
Variable ParseUnverified : string → @Claims claims → Token * option error.
Variable fmt_v : option value → string.
Variable Claims_Valid : @Claims claims → option error.
Variable Method_Verify : Token → option (list Byte.byte) → option error.

(** The parser returns no error only with a token it made [Valid]. *)
Lemma validate_Valid (token token' : Token) (key : option (list Byte.byte)) :
  jwt.validate Claims_Valid Method_Verify token key = (token', None) →
  jwt.Valid token' = true.
Proof.
  unfold jwt.validate.
  destruct (Method_Verify token key), (Claims_Valid (jwt.Claims token)); try done.
  by intros [= <-].
Qed.

(** The branch of lines 48-51 is not reached: whenever the gate gets past
    the error of the parser, the token is [Valid]. *)
Lemma ParseWithClaims_Valid (secret bearer : string) (c : @Claims claims)
    (token : Token) :
  jwt.ParseWithClaims ParseUnverified (jwt.validate Claims_Valid Method_Verify)
    bearer c (keyFunc fmt_v secret) = (token, None) →
  jwt.Valid token = true.
Proof.
  unfold jwt.ParseWithClaims.
  destruct (ParseUnverified bearer c) as [token0 [e|]]; [done|].
  destruct (keyFunc fmt_v secret token0) as [key [e|]]; [done|].
  apply validate_Valid.
Qed.

(** C7, as the code behaves.  When the token is of the HMAC family and
    its signature verifies with the secret but its claims fail their own
    validity check, the parser returns the validation error, and the gate
    replies with status 403 and the message of that error (lines 43-46),
    not with the fixed message ["token is invalid"] of lines 48-51; the
    next handler is not called. *)
Theorem JwtHS256_claims_invalid (secret : string) (cf : unit → @Claims claims)
    (r r' : Request) (bearer name : string) (token0 : Token) (e : error) :
  Bearer ParseQuery parsePostForm ParseMultipartForm r = (bearer, true, r') →
  ParseUnverified bearer (cf tt) = (token0, None) →
  jwt.Method token0 = Some (jwt.SigningMethodHMAC name) →
  Method_Verify token0 (Some (list_byte_of_string secret)) = None →
  Claims_Valid (jwt.Claims token0) = Some e →
  ∀ next w,
    JwtHS256 ParseQuery parsePostForm ParseMultipartForm ResponseWriter http_Error
      ParseUnverified (jwt.validate Claims_Valid Method_Verify) fmt_v
      secret cf next w r
    = http_Error w (Error e) http.StatusForbidden.
Proof.
  intros HB HP Hm Hv Hc next w. unfold JwtHS256, jwt.ParseWithClaims.
  rewrite HB. simpl. rewrite HP. unfold keyFunc. rewrite Hm.
  unfold jwt.validate. by rewrite Hv, Hc.
Qed.
End validation.

(** ** The statements on the concrete configuration *)

#[local] Abbreviation PQ := Example.ParseQuery.
#[local] Abbreviation PPF := Example.parsePostForm.
#[local] Abbreviation PMF := Example.ParseMultipartForm.
#[local] Abbreviation ExBearer := (Bearer PQ PPF PMF).
#[local] Abbreviation ExGate :=
  (JwtHS256 PQ PPF PMF Example.ResponseWriter Example.http_Error
     Example.ParseUnverified Example.verify Example.fmt_v "k" Example.cf).

Lemma Bearer_found_nonempty_witness :
  ExBearer Example.reqQuery = ("HS256.alice.k", true, Example.reqQuery) ∧
  "HS256.alice.k" ≠ "".
Proof.
  split; [by vm_compute|].
  apply (Bearer_found_nonempty PQ PPF PMF Example.reqQuery Example.reqQuery).
  by vm_compute.
Defined.

Lemma Bearer_precedence_witness :
  ExBearer Example.reqAll = ("HS256.alice.k", true, Example.reqAll) ∧
  ExBearer Example.reqQuery = ("HS256.alice.k", true, Example.reqQuery).
Proof.
  split.
  - apply (proj1 (Bearer_precedence PQ PPF PMF Example.reqAll)). by vm_compute.
  - apply (proj1 (proj2 (Bearer_precedence PQ PPF PMF Example.reqQuery))
             eq_refl [""] "HS256.alice.k" []).
    + by vm_compute.
    + by repeat constructor.
    + by vm_compute.
Defined.

Lemma Bearer_ParseForm_error_witness :
  (http.ParseForm PQ PPF Example.reqBad).1
    = Some (errorString "invalid semicolon separator in query") ∧
  (ExBearer Example.reqBad).1 = ("", false).
Proof.
  split; [by vm_compute|].
  rewrite (Bearer_ParseForm_error PQ PPF PMF Example.reqBad
             (errorString "invalid semicolon separator in query")).
  - done.
  - by vm_compute.
  - vm_compute. constructor.
  - by vm_compute.
Defined.

Lemma JwtHS256_no_token_witness :
  ExGate Example.served [] Example.reqNone
    = [(401%Z, "no JSON web token in request")].
Proof.
  rewrite (JwtHS256_no_token PQ PPF PMF Example.ResponseWriter Example.http_Error
             Example.ParseUnverified Example.verify Example.fmt_v Example.reqNone).
  - done.
  - vm_compute. constructor.
  - vm_compute. by repeat constructor.
  - vm_compute. constructor.
  - intros f Hf. by vm_compute in Hf.
Defined.

Lemma JwtHS256_parse_error_witness :
  ExGate Example.served [] Example.reqWrongKey = [(403%Z, "signature is invalid")].
Proof.
  rewrite (JwtHS256_parse_error PQ PPF PMF Example.ResponseWriter Example.http_Error
             Example.ParseUnverified Example.verify Example.fmt_v "k" Example.cf
             Example.reqWrongKey Example.reqWrongKey "HS256.alice.j"
             (Example.ParseUnverified "HS256.alice.j" None).1
             (errorString "signature is invalid")).
  - done.
  - by vm_compute.
  - by vm_compute.
Defined.

Lemma JwtHS256_not_HMAC_witness :
  ∃ body, ∀ next w,
    ExGate next w Example.reqRSA = Example.http_Error w body http.StatusForbidden.
Proof.
  apply (JwtHS256_not_HMAC PQ PPF PMF Example.ResponseWriter Example.http_Error
           Example.ParseUnverified Example.verify Example.fmt_v "k" Example.cf
           Example.reqRSA Example.reqRSA "RS256.alice.k"
           (Example.ParseUnverified "RS256.alice.k" None).1 None).
  - by vm_compute.
  - by vm_compute.
  - intros name. by vm_compute.
Defined.

Lemma JwtHS256_valid_witness :
  ∃ r' : Example.Request,
    (∀ next w, ExGate next w Example.reqForm = next w r') ∧
    GetClaimsFromContext (http.Context r') = Some "alice".
Proof.
  pose proof (JwtHS256_valid PQ PPF PMF Example.ResponseWriter Example.http_Error
                Example.ParseUnverified Example.verify Example.fmt_v "k" Example.cf
                Example.reqForm (ExBearer Example.reqForm).2 "HS256.alice.k" "HS256"
                (Example.ParseUnverified "HS256.alice.k" None).1
                (Example.verify (Example.ParseUnverified "HS256.alice.k" None).1
                   (Some (list_byte_of_string "k"))).1) as H.
  eexists. apply H; by vm_compute.
Defined.

Lemma GetClaimsFromContext_zero_witness :
  GetClaimsFromContext (claims := string) (value := string) context.Background = None ∧
  GetClaimsFromContext (claims := string)
    (context.WithValue context.Background claimsKey (Some (ofOther "user"))) = None.
Proof.
  split.
  - apply GetClaimsFromContext_zero. by left.
  - apply GetClaimsFromContext_zero. right. by exists "user".
Defined.

(** C4. A token found in the form body is deleted from [r.PostForm],
    whose other fields are kept, but not from [r.Form]: the request that
    [Bearer] leaves still holds the token under [Authorization] in
    [r.Form], and [r.FormValue("Authorization")] returns it. *)
Theorem Bearer_form_token_left_in_Form :
  let r' := (ExBearer Example.reqForm).2 in
  ExBearer Example.reqForm = ("HS256.alice.k", true, r') ∧
  http.PostForm r' = Some {[ "name" := ["x"] ]} ∧
  http.Form r' =
    Some {[ "Authorization" := ["HS256.alice.k"]; "name" := ["x"]; "page" := ["2"] ]} ∧
  (http.FormValue PMF r' "Authorization").1 = "HS256.alice.k".
Proof. by vm_compute. Qed.


Lemma Bearer_not_found_empty_witness : (ExBearer Example.reqNone).1.1 = "".
Proof.
  apply (Bearer_not_found_empty PQ PPF PMF Example.reqNone
           (ExBearer Example.reqNone).2 (ExBearer Example.reqNone).1.1).
  by vm_compute.
Defined.

Lemma Bearer_idempotent_witness :
  ExBearer (ExBearer Example.reqForm).2 =
  ("HS256.alice.k", true, (ExBearer Example.reqForm).2).
Proof.
  apply (Bearer_idempotent PQ PPF PMF Example.reqForm). by vm_compute.
Defined.

Lemma Bearer_found_iff_witness : (ExBearer Example.reqForm).1.2 = true.
Proof.
  apply (proj2 (Bearer_found_iff PQ PPF PMF Example.reqForm eq_refl)).
  right. right. split; by vm_compute.
Defined.

Lemma Bearer_query_error_witness : (ExBearer Example.reqBadQuery).1 = ("", false).
Proof.
  apply (Bearer_query_error PQ PPF PMF Example.reqBadQuery
           (errorString "invalid semicolon separator in query")).
  - done.
  - by vm_compute.
  - vm_compute. constructor.
  - by vm_compute.
Defined.

Lemma Bearer_body_not_read_witness : (ExBearer Example.reqGetBody).1 = ("", false).
Proof.
  apply (Bearer_body_not_read PQ PPF PMF Example.reqGetBody).
  - done.
  - done.
  - by intros [?|[?|?]].
  - by vm_compute.
  - vm_compute. constructor.
Defined.

Lemma Bearer_form_first_empty_witness :
  (ExBearer Example.reqFormRepeated).1 = ("", false).
Proof.
  apply (Bearer_form_first_empty PQ PPF PMF Example.reqFormRepeated
           (default ∅ (PPF Example.reqFormRepeated).1) ["HS256.alice.k"]).
  - done.
  - done.
  - by left.
  - by vm_compute.
  - by vm_compute.
  - by vm_compute.
  - vm_compute. constructor.
Defined.

Lemma Bearer_form_first_value_witness :
  ∃ r', ExBearer Example.reqForm = ("HS256.alice.k", true, r') ∧
        http.PostForm r' =
          Some (delete jwtAuthKey (default ∅ (PPF Example.reqForm).1)).
Proof.
  apply (Bearer_form_first_value PQ PPF PMF Example.reqForm
           (default ∅ (PPF Example.reqForm).1) "HS256.alice.k" []).
  - done.
  - done.
  - by left.
  - by vm_compute.
  - by vm_compute.
  - by vm_compute.
  - done.
  - by vm_compute.
  - vm_compute. constructor.
Defined.

Lemma JwtHS256_not_HMAC_message_witness :
  ExGate Example.served [] Example.reqRSA
    = [(403%Z, "unexpected signing method: RS256")].
Proof.
  rewrite (JwtHS256_not_HMAC_message PQ PPF PMF Example.ResponseWriter
             Example.http_Error Example.ParseUnverified Example.verify Example.fmt_v
             "k" Example.cf Example.reqRSA Example.reqRSA "RS256.alice.k"
             (Example.ParseUnverified "RS256.alice.k" None).1).
  - by vm_compute.
  - by vm_compute.
  - by vm_compute.
  - intros name. by vm_compute.
Defined.

Lemma JwtHS256_key_is_secret_witness :
  JwtHS256 PQ PPF PMF Example.ResponseWriter Example.http_Error
    Example.ParseUnverified Example.verifyLax Example.fmt_v "k" Example.cf
    Example.served [] Example.reqWrongKey
  = [(403%Z, "signature is invalid")].
Proof.
  rewrite (JwtHS256_key_is_secret PQ PPF PMF Example.ResponseWriter
             Example.http_Error Example.ParseUnverified Example.fmt_v
             Example.verifyLax Example.verify "k").
  - by vm_compute.
  - intros t. unfold Example.verifyLax. by rewrite bool_decide_eq_true_2.
Defined.

Lemma Bearer_parsed_witness :
  ExBearer Example.reqParsed =
  ("HS256.alice.k", true,
   http.set_PostForm Example.reqParsed (Some {[ "name" := ["x"] ]})).
Proof.
  rewrite (Bearer_parsed PQ PPF PMF Example.reqParsed
             {[ "Authorization" := ["HS256.alice.k"]; "name" := ["x"] ]}
             {[ "Authorization" := ["HS256.alice.k"]; "name" := ["x"] ]}).
  - by vm_compute.
  - done.
  - done.
  - by vm_compute.
  - vm_compute. constructor.
Defined.

Lemma JwtHS256_claims_invalid_witness :
  ExGate Example.served [] Example.reqExpired
    = [(403%Z, "token is expired by 1h0m0s")] ∧
  ExGate Example.served [] Example.reqExpired ≠ [(403%Z, "token is invalid")].
Proof.
  assert (ExGate Example.served [] Example.reqExpired
          = [(403%Z, "token is expired by 1h0m0s")]) as H.
  { apply (JwtHS256_claims_invalid PQ PPF PMF Example.ResponseWriter
             Example.http_Error Example.ParseUnverified Example.fmt_v
             Example.Claims_Valid Example.Method_Verify "k" Example.cf
             Example.reqExpired Example.reqExpired "HS256.expired.k" "HS256"
             (Example.ParseUnverified "HS256.expired.k" None).1
             (errorString "token is expired by 1h0m0s")); by vm_compute. }
  split; [done|]. rewrite H. by intros [=].
Defined.
